(** * pytorch-lifestream: the NSP data module and the CoLES lightning module

    A shallow embedding of
    - [dltranz/data_load/data_module/nsp_data_module.py] (module [Nsp]) and
    - [ptls/lightning_modules/coles_module.py] (module [Coles]),
    with the properties of the data-preparation pipeline stated over it.

    Python values are modelled as the code has them: exceptions are an
    explicit result type, the interpreter state that survives a call (the
    global generator of the [random] module) is threaded through a state
    and error monad, double precision numbers are IEEE binary64 values
    ([SpecFloat]), dictionaries are finite maps and Python sets are [gset]s. *)

From Stdlib Require Import ZArith Bool Lia.
From Stdlib Require Import Floats.SpecFloat.
From stdpp Require Import gmap strings list.

#[local] Set Warnings "-register-all".

Local Open Scope Z_scope.
Local Open Scope string_scope.
Local Open Scope list_scope.

(** ** Python runtime: exceptions, results, the state and error monad *)

Module Py.

Inductive exn :=
| NameError (name : string)
| AttributeError (msg : string)
| NotImplementedError (msg : string)
| KeyError (key : string)
| IndexError
| TypeError (msg : string)
| ValueError (msg : string)
| OverflowError
| AssertionError.

Inductive result (A : Type) :=
| Ok (a : A)
| Raise (e : exn).
Arguments Ok {A} a.
Arguments Raise {A} e.

(** A computation over an interpreter state [W]: it returns a value or
    raises, and in both cases leaves a state behind. *)
Definition M (W A : Type) : Type := W -> result A * W.

Definition ret {W A} (a : A) : M W A := fun w => (Ok a, w).
Definition raise {W A} (e : exn) : M W A := fun w => (Raise e, w).
Definition lift {W A} (r : result A) : M W A := fun w => (r, w).
Definition bind {W A B} (m : M W A) (k : A -> M W B) : M W B :=
  fun w => match m w with
           | (Ok a, w') => k a w'
           | (Raise e, w') => (Raise e, w')
           end.

(** [d[key]] on a configuration tree or a dict whose key may be missing. *)
Definition getitem {A} (key : string) (o : option A) : result A :=
  match o with
  | Some a => Ok a
  | None => Raise (KeyError key)
  end.

(** [o.name] on an object that may lack the attribute. *)
Definition getattr {A} (name : string) (o : option A) : result A :=
  match o with
  | Some a => Ok a
  | None => Raise (AttributeError name)
  end.

(** *** Numbers *)

(** A Python [float] is an IEEE binary64 value. *)
Definition float : Type := spec_float.
Definition prec64 : Z := 53.
Definition emax64 : Z := 1024.

Inductive number :=
| PyInt (z : Z)
| PyFloat (x : float).

(** [float(z)] for an [int]: round to nearest even, [OverflowError] when
    the integer is beyond the range of a double. *)
Definition float_of_int (z : Z) : result float :=
  match binary_normalize prec64 emax64 z 0 false with
  | S754_infinity _ => Raise OverflowError
  | x => Ok x
  end.

(** [n * x] for an [int] [n]. *)
Definition mul_int (n : Z) (x : number) : result number :=
  match x with
  | PyInt z => Ok (PyInt (n * z))
  | PyFloat y =>
      match float_of_int n with
      | Ok nf => Ok (PyFloat (SFmul prec64 emax64 nf y))
      | Raise e => Raise e
      end
  end.

(** [int(x)]: truncation toward zero. *)
Definition int_of_float (x : float) : result Z :=
  match x with
  | S754_zero _ => Ok 0
  | S754_infinity _ => Raise OverflowError
  | S754_nan => Raise (ValueError "cannot convert float NaN to integer")
  | S754_finite s m e =>
      let a := match e with
               | Zneg p => Z.shiftr (Zpos m) (Zpos p)
               | _ => Z.shiftl (Zpos m) e
               end in
      Ok (if s then - a else a)
  end.

Definition int (x : number) : result Z :=
  match x with
  | PyInt z => Ok z
  | PyFloat y => int_of_float y
  end.

(** *** Lists *)

(** [enumerate(l)] *)
Definition enumerate {A} (l : list A) : list (nat * A) := imap pair l.

(** [x[i], x[j] = x[j], x[i]]: the right-hand side is read first, then
    [x[i]] and [x[j]] are stored, in that order. *)
Definition swap_items {A} (i j : nat) (x : list A) : result (list A) :=
  match x !! j, x !! i with
  | Some xj, Some xi => Ok (<[j := xi]> (<[i := xj]> x))
  | _, _ => Raise IndexError
  end.

(** *** Module namespaces *)

(** The evaluation of a global name: the module's namespace is searched
    (no builtin carries one of the names looked up in this development)
    and an unbound name raises [NameError]. *)
Definition load_global {V} (G : gmap string V) (name : string) : result V :=
  match G !! name with
  | Some v => Ok v
  | None => Raise (NameError name)
  end.

End Py.

Export Py.

Notation "'let!' x ':=' m 'in' k" := (Py.bind m (fun x => k))
  (at level 10, x pattern, m at level 100, k at level 200).

(** * [dltranz/data_load/data_module/nsp_data_module.py] *)

Module Nsp.

(** ** Data model *)

(** A field of an entity record: a scalar or an event sequence. *)
Inductive value :=
| VInt (z : Z)
| VStr (s : string)
| VSeq (xs : list Z).

(** An entity record: a dict from field name to value. *)
Abbreviation Row := (gmap string value).

(** *** The configuration tree

    Every key a method reads is an [option]: a missing key makes the
    subscript raise. *)
Abbreviation strategy_conf := (list (string * number)).
Abbreviation parts_kwargs := (list (string * string)).

Record dataset_files_conf := { data_path : option string }.

Record setup_conf_t := {
  conf_col_id : option string;
  dataset_files : option dataset_files_conf;
  dataset_parts : option parts_kwargs;
  split_by : option string;
  valid_size : option number;
  valid_split_seed : option Z;
}.

Record train_conf_t := {
  min_seq_len : option Z;
  buffer_size : option Z;
  train_split_strategy : option strategy_conf;
  trx_dropout : option number;
  train_num_workers : option Z;
  train_batch_size : option Z;
}.

Record valid_conf_t := {
  valid_split_strategy : option strategy_conf;
  valid_num_workers : option Z;
  valid_batch_size : option Z;
}.

Record conf_t := {
  conf_type : option string;
  conf_setup : option setup_conf_t;
  conf_train : option train_conf_t;
  conf_valid : option valid_conf_t;
}.

(** The model handed to the constructor, as far as the constructor reads
    it: [pl_module.seq_encoder.category_max_size]. *)
Record seq_encoder_t := {
  encoder_category_max_size : option (list (string * Z));
}.

Record pl_module_t := {
  pl_seq_encoder : option seq_encoder_t;
}.

(** *** The objects the module builds *)

(** [split_strategy.create] applied to the keyword arguments of a strategy. *)
Inductive strategy := split_strategy_create (kwargs : strategy_conf).

(** Augmentation stages. *)
Inductive aug :=
| DropoutTrx (trx_dropout : number)
| sequence_pair_augmentation.

(** Stages of the per-record processing chain. *)
Inductive stage :=
| IdFilter (id_col : string) (relevant_ids : option (list value))
| SeqLenFilter (min_seq_len : Z)
| FeatureTypeCast_int (col : string)
| FeatureFilter (drop_non_iterable : bool)
| CategorySizeClip (category_max_size : list (string * Z))
| IterableShuffle (buffer_size : Z)
| IterableSplittingDataset (splitter : strategy)
| IterableAugmentations (a_chain : list aug)
| IterableChain (stages : list stage).

(** Datasets; [shuffle_files] is [false] where a call leaves it out. *)
Inductive dataset :=
| ParquetDataset (data_files : list string) (post_processing : stage)
    (shuffle_files : bool)
| PartitionedDataset (data_path : string) (dt_parts hash_parts : list string)
    (col_id : string) (post_processing : stage) (shuffle_files : bool)
| MapSplittingDataset (base_dataset : list Row) (splitter : strategy)
    (a_chain : list aug).

(** [PartitionedDataFiles(...)]: the listing of a partitioned source. *)
Record partitioned_data_files := {
  pdf_data_path : string;
  pdf_dt_parts : list string;
  pdf_hash_parts : list string;
}.

Inductive collate_fn :=
| collate_nsp_pairs_fn
| nested_list_to_flat_with_collate (inner : collate_fn).

(** The arguments a [DataLoader] is constructed with; [shuffle] is [None]
    when the call does not pass it. *)
Record DataLoader := {
  dl_dataset : option dataset;
  dl_collate_fn : collate_fn;
  dl_shuffle : option bool;
  dl_num_workers : Z;
  dl_batch_size : Z;
}.

(** torch's [DataLoader] does not shuffle unless told to. *)
Definition DataLoader_shuffles (dl : DataLoader) : bool :=
  match dl_shuffle dl with
  | Some b => b
  | None => false
  end.

(** The data module object. *)
Record NspDataModuleTrain := {
  _type : string;
  setup_conf : setup_conf_t;
  train_conf : train_conf_t;
  valid_conf : valid_conf_t;
  col_id : string;
  category_max_size : list (string * Z);
  train_dataset : option dataset;
  valid_dataset : option dataset;
  _train_ids : option (list value);
  _valid_ids : option (list value);
}.

Definition set_datasets (self : NspDataModuleTrain) (tr va : dataset)
  : NspDataModuleTrain :=
  {| _type := _type self; setup_conf := setup_conf self;
     train_conf := train_conf self; valid_conf := valid_conf self;
     col_id := col_id self; category_max_size := category_max_size self;
     train_dataset := Some tr; valid_dataset := Some va;
     _train_ids := _train_ids self; _valid_ids := _valid_ids self |}.

Definition set_ids (self : NspDataModuleTrain) (tr va : list value)
  : NspDataModuleTrain :=
  {| _type := _type self; setup_conf := setup_conf self;
     train_conf := train_conf self; valid_conf := valid_conf self;
     col_id := col_id self; category_max_size := category_max_size self;
     train_dataset := train_dataset self; valid_dataset := valid_dataset self;
     _train_ids := Some tr; _valid_ids := Some va |}.

(** *** The module namespace *)

(** The argument of [shuffle_client_list_reproducible], built by
    [ConfigFactory.from_dict]. *)
Record shuffle_conf := {
  client_list_shuffle_seed : Z;
  shuffle_col_id : string;
}.

(** What a global name of the module is bound to: an object brought in by
    an [import] or defined by a [def] or [class] of the file, or a
    function from a configuration and a list of records to a list of
    records. *)
Inductive global_obj :=
| Imported (qualname : string)
| ListFunction (h : shuffle_conf -> list Row -> list Row).

(** The names bound at module level, lines 18 to 69. *)
Definition module_globals : gmap string global_obj :=
  list_to_map (map (fun n => (n, Imported n))
    [ "logging"; "random"; "np"; "pl"; "torch"; "ConfigFactory"; "DataLoader";
      "tqdm"; "sequence_pair_augmentation"; "IterableAugmentations";
      "IterableChain"; "augmentation_chain"; "padded_collate_wo_target";
      "DropoutTrx"; "CategorySizeClip"; "FeatureFilter"; "FeatureTypeCast";
      "IdFilter"; "IterableShuffle"; "SeqLenFilter"; "ListSplitter";
      "ParquetDataset"; "ParquetFiles"; "PartitionedDataset";
      "PartitionedDataFiles"; "split_strategy";
      "nested_list_to_flat_with_collate"; "IterableSplittingDataset";
      "MapSplittingDataset"; "logger"; "collate_nsp_pairs";
      "NspDataModuleTrain" ]).

Definition call_list_function (f : global_obj) (c : shuffle_conf)
    (rows : list Row) : result (list Row) :=
  match f with
  | ListFunction h => Ok (h c rows)
  | Imported n => Raise (TypeError n)
  end.

Fixpoint result_mapM {A B} (f : A -> result B) (l : list A) : result (list B) :=
  match l with
  | [] => Ok []
  | a :: l' =>
      match f a with
      | Raise e => Raise e
      | Ok b =>
          match result_mapM f l' with
          | Raise e => Raise e
          | Ok bs => Ok (b :: bs)
          end
      end
  end.

(** ** The data module *)

Section DataModule.

(** The interpreter state: whatever outlives a call (the generators of
    [random] and [numpy.random], the clock). *)
Context {W : Type}.

(** The module namespace the methods run in. *)
Variable G : gmap string global_obj.

(** External collaborators: the file listings, the records a dataset
    yields when iterated, the file-level splitter (its [train] and
    [valid] lists) and the index permutation drawn by a freshly seeded
    [numpy.random.RandomState]. *)
Variable ParquetFiles : string -> list string.
Variable PartitionedDataFiles : parts_kwargs -> result partitioned_data_files.
Variable iter_dataset : dataset -> list Row.
Variable ListSplitter : list string -> number -> Z -> list string * list string.
Variable RandomState_permutation : Z -> nat -> list nat.

(** The outcome of the constructor of the base class,
    [pl.LightningDataModule.__init__]. *)
Variable LightningDataModule_init : result unit.

(** [RandomState(seed).choice(a, size=size, replace=False)]: the first
    [size] entries of a permutation of the positions of [a]. *)
Definition RandomState_choice (seed : Z) (a : list nat) (size : Z)
  : result (list nat) :=
  if decide (size < 0) then
    Raise (ValueError "negative dimensions are not allowed")
  else if decide (Z.of_nat (length a) < size) then
    Raise (ValueError "Cannot take a larger sample than population when 'replace=False'")
  else
    Ok (omap (fun i => a !! i)
          (take (Z.to_nat size) (RandomState_permutation seed (length a)))).

(** [__init__]: the base constructor first, then the subscripts and the
    attribute reads in the order of lines 73 to 81. *)
Definition init (conf : conf_t) (pl_module : pl_module_t)
  : result NspDataModuleTrain :=
  match LightningDataModule_init with
  | Raise e => Raise e
  | Ok _ =>
  match getitem "type" (conf_type conf) with
  | Raise e => Raise e
  | Ok ty =>
      if decide (ty = "map" \/ ty = "iterable") then
        match getitem "setup" (conf_setup conf) with
        | Raise e => Raise e
        | Ok sc =>
        match getitem "train" (conf_train conf) with
        | Raise e => Raise e
        | Ok tc =>
        match getitem "valid" (conf_valid conf) with
        | Raise e => Raise e
        | Ok vc =>
        match getitem "col_id" (conf_col_id sc) with
        | Raise e => Raise e
        | Ok c =>
        match getattr "seq_encoder" (pl_seq_encoder pl_module) with
        | Raise e => Raise e
        | Ok encoder =>
        match getattr "category_max_size" (encoder_category_max_size encoder) with
        | Raise e => Raise e
        | Ok cms =>
            Ok {| _type := ty; setup_conf := sc;
                  train_conf := tc; valid_conf := vc;
                  col_id := c; category_max_size := cms;
                  train_dataset := None; valid_dataset := None;
                  _train_ids := None; _valid_ids := None |}
        end end end end end end
      else Raise AssertionError
  end
  end.

(** [build_augmentations] *)
Definition build_augmentations (self : NspDataModuleTrain) (part : string)
  : result (list aug) :=
  match (if decide (part = "train") then
           match getitem "trx_dropout" (trx_dropout (train_conf self)) with
           | Ok p => Ok [DropoutTrx p]
           | Raise e => Raise e
           end
         else Ok []) with
  | Raise e => Raise e
  | Ok dropout => Ok (dropout ++ [sequence_pair_augmentation])
  end.

(** [split_by_rows] *)
Definition split_by_rows (self : NspDataModuleTrain) (data_files : list string)
  : M W NspDataModuleTrain :=
  let! min_len := lift (getitem "min_seq_len" (min_seq_len (train_conf self))) in
  let ds := ParquetDataset data_files (SeqLenFilter min_len) false in
  let list_ids := iter_dataset ds in
  let! shuffle_client_list_reproducible :=
    lift (load_global G "shuffle_client_list_reproducible") in
  let! list_ids :=
    lift (call_list_function shuffle_client_list_reproducible
            {| client_list_shuffle_seed := 42; shuffle_col_id := col_id self |}
            list_ids) in
  let! list_ids :=
    lift (result_mapM (fun row : Row => getitem (col_id self) (row !! col_id self))
            list_ids) in
  let valid_ix := seq 0 (length list_ids) in
  let! vs := lift (getitem "valid_size" (valid_size (setup_conf self))) in
  let! prod := lift (mul_int (Z.of_nat (length list_ids)) vs) in
  let! size := lift (int prod) in
  let! valid_ix := lift (RandomState_choice 42 valid_ix size) in
  let valid_ix : gset nat := list_to_set valid_ix in
  let train_data :=
    (filter (fun p : nat * value => p.1 ∉ valid_ix) (enumerate list_ids)).*2 in
  let valid_data :=
    (filter (fun p : nat * value => p.1 ∈ valid_ix) (enumerate list_ids)).*2 in
  ret (set_ids self train_data valid_data).

(** [build_iterable_processing]: the stages the generator yields, in
    order. *)
Definition build_iterable_processing (self : NspDataModuleTrain) (part : string)
  : result (list stage) :=
  let sc := setup_conf self in
  match
    (match dataset_files sc with
     | Some _ =>
         match getitem "split_by" (split_by sc) with
         | Raise e => Raise e
         | Ok sb =>
             if decide (sb = "rows") then
               if decide (part = "train")
               then Ok [IdFilter (col_id self) (_train_ids self)]
               else Ok [IdFilter (col_id self) (_valid_ids self)]
             else Ok []
         end
     | None => Ok []
     end),
    (if decide (part = "train") then
       match getitem "min_seq_len" (min_seq_len (train_conf self)) with
       | Ok n => Ok [SeqLenFilter n]
       | Raise e => Raise e
       end
     else Ok []),
    (if decide (_type self = "iterable") then
       match
         (if decide (part = "train") then
            match getitem "buffer_size" (buffer_size (train_conf self)) with
            | Ok b => Ok [IterableShuffle b]
            | Raise e => Raise e
            end
          else Ok []),
         (if decide (part = "train")
          then getitem "split_strategy" (train_split_strategy (train_conf self))
          else getitem "split_strategy" (valid_split_strategy (valid_conf self))),
         build_augmentations self part
       with
       | Raise e, _, _ => Raise e
       | Ok _, Raise e, _ => Raise e
       | Ok _, Ok _, Raise e => Raise e
       | Ok shuffle, Ok split_strategy_conf, Ok augs =>
           Ok (shuffle ++
               [IterableSplittingDataset (split_strategy_create split_strategy_conf);
                IterableAugmentations augs])
       end
     else Ok [])
  with
  | Raise e, _, _ => Raise e
  | Ok _, Raise e, _ => Raise e
  | Ok _, Ok _, Raise e => Raise e
  | Ok id_filter, Ok seq_len, Ok rest =>
      Ok (id_filter ++ seq_len ++
          [FeatureTypeCast_int (col_id self); FeatureFilter true;
           CategorySizeClip (category_max_size self)] ++ rest)
  end.

(** The two [ParquetDataset]s of a files source, train first. *)
Definition parquet_datasets (self : NspDataModuleTrain)
    (train_files valid_files : list string) : result NspDataModuleTrain :=
  match build_iterable_processing self "train" with
  | Raise e => Raise e
  | Ok tr =>
      match build_iterable_processing self "valid" with
      | Raise e => Raise e
      | Ok va =>
          Ok (set_datasets self
                (ParquetDataset train_files (IterableChain tr)
                   (if decide (_type self = "iterable") then true else false))
                (ParquetDataset valid_files (IterableChain va) false))
      end
  end.

(** [setup_iterable_files] *)
Definition setup_iterable_files (self : NspDataModuleTrain)
  : M W NspDataModuleTrain :=
  let sc := setup_conf self in
  let dataset_files_data_path :=
    getitem "dataset_files.data_path" (dataset_files sc ≫= data_path) in
  let! sb := lift (getitem "split_by" (split_by sc)) in
  if decide (sb = "files") then
    let! path := lift dataset_files_data_path in
    let data_files := ParquetFiles path in
    let! vs := lift (getitem "valid_size" (valid_size sc)) in
    let! seed := lift (getitem "valid_split_seed" (valid_split_seed sc)) in
    let splitter := ListSplitter data_files vs seed in
    lift (parquet_datasets self splitter.1 splitter.2)
  else if decide (sb = "rows") then
    let! path := lift dataset_files_data_path in
    let data_files := ParquetFiles path in
    let! self := split_by_rows self data_files in
    lift (parquet_datasets self data_files data_files)
  else
    raise (AttributeError ("Unknown split strategy: " +:+ sb)).

(** [setup_iterable_parts] *)
Definition setup_iterable_parts (self : NspDataModuleTrain)
  : M W NspDataModuleTrain :=
  let sc := setup_conf self in
  let! kwargs := lift (getitem "dataset_parts" (dataset_parts sc)) in
  let! data_files := lift (PartitionedDataFiles kwargs) in
  let! sb := lift (getitem "split_by" (split_by sc)) in
  if decide (sb = "hash_id") then
    let! vs := lift (getitem "valid_size" (valid_size sc)) in
    let! seed := lift (getitem "valid_split_seed" (valid_split_seed sc)) in
    let splitter := ListSplitter (pdf_hash_parts data_files) vs seed in
    let! tr := lift (build_iterable_processing self "train") in
    let! va := lift (build_iterable_processing self "valid") in
    ret (set_datasets self
           (PartitionedDataset (pdf_data_path data_files) (pdf_dt_parts data_files)
              splitter.1 (col_id self) (IterableChain tr)
              (if decide (_type self = "iterable") then true else false))
           (PartitionedDataset (pdf_data_path data_files) (pdf_dt_parts data_files)
              splitter.2 (col_id self) (IterableChain va) false))
  else if decide (sb = "rows") then
    raise (NotImplementedError "Split by rows aren't supported for partitioned dataset")
  else
    raise (AttributeError ("Unknown split strategy: " +:+ sb)).

(** [setup_map]: both datasets are read into lists and wrapped. *)
Definition setup_map (self : NspDataModuleTrain) : M W NspDataModuleTrain :=
  let iter (ds : option dataset) : result (list Row) :=
    match ds with
    | Some d => Ok (iter_dataset d)
    | None => Raise (TypeError "'NoneType' object is not iterable")
    end in
  let! train_rows := lift (iter (train_dataset self)) in
  let! valid_rows := lift (iter (valid_dataset self)) in
  let! tconf := lift (getitem "split_strategy" (train_split_strategy (train_conf self))) in
  let! taugs := lift (build_augmentations self "train") in
  let! vconf := lift (getitem "split_strategy" (valid_split_strategy (valid_conf self))) in
  let! vaugs := lift (build_augmentations self "valid") in
  ret (set_datasets self
         (MapSplittingDataset train_rows (split_strategy_create tconf) taugs)
         (MapSplittingDataset valid_rows (split_strategy_create vconf) vaugs)).

(** [prepare_data] *)
Definition prepare_data (self : NspDataModuleTrain) : M W NspDataModuleTrain :=
  let! self :=
    match dataset_files (setup_conf self), dataset_parts (setup_conf self) with
    | Some _, _ => setup_iterable_files self
    | None, Some _ => setup_iterable_parts self
    | None, None =>
        raise (AttributeError
          "Missing dataset definition. One of `dataset_parts` or `dataset_files` expected")
    end in
  if decide (_type self = "map") then setup_map self else ret self.

(** The collate function both loaders use. *)
Definition loader_collate_fn (self : NspDataModuleTrain) : collate_fn :=
  if decide (_type self <> "iterable")
  then nested_list_to_flat_with_collate collate_nsp_pairs_fn
  else collate_nsp_pairs_fn.

(** [train_dataloader] *)
Definition train_dataloader (self : NspDataModuleTrain) : result DataLoader :=
  match getitem "num_workers" (train_num_workers (train_conf self)) with
  | Raise e => Raise e
  | Ok nw =>
      match getitem "batch_size" (train_batch_size (train_conf self)) with
      | Raise e => Raise e
      | Ok bs =>
          Ok {| dl_dataset := train_dataset self;
                dl_collate_fn := loader_collate_fn self;
                dl_shuffle :=
                  Some (if decide (_type self = "iterable") then false else true);
                dl_num_workers := nw;
                dl_batch_size := bs |}
      end
  end.

(** [val_dataloader] *)
Definition val_dataloader (self : NspDataModuleTrain) : result DataLoader :=
  match getitem "num_workers" (valid_num_workers (valid_conf self)) with
  | Raise e => Raise e
  | Ok nw =>
      match getitem "batch_size" (valid_batch_size (valid_conf self)) with
      | Raise e => Raise e
      | Ok bs =>
          Ok {| dl_dataset := valid_dataset self;
                dl_collate_fn := loader_collate_fn self;
                dl_shuffle := None;
                dl_num_workers := nw;
                dl_batch_size := bs |}
      end
  end.

End DataModule.

(** ** Batch assembly: [collate_nsp_pairs] *)

(** A 32-bit float tensor element, as [Tensor.float()] makes it from an
    [int64] one. *)
Definition float32_of_int64 (z : Z) : spec_float :=
  binary_normalize 24 128 z 0 false.

Definition torch_ones (n : nat) : list Z := replicate n 1.
Definition torch_zeros (n : nat) : list Z := replicate n 0.
Definition torch_cat (ts : list (list Z)) : list Z := concat ts.
Definition tensor_float (t : list Z) : list spec_float := float32_of_int64 <$> t.

(** [l * k] on a list. *)
Definition list_mul {A} (l : list A) (k : nat) : list A := concat (replicate k l).

Section Collate.

(** The state of the global generator of the [random] module, and the
    draw of an integer below [n] from it. *)
Context {rng : Type}.
Variable randbelow : nat -> rng -> nat * rng.

(** A view, and what [padded_collate_wo_target] makes of a list of them. *)
Context {View Features : Type}.
Variable padded_collate_wo_target : list View -> Features.

Definition _randbelow (n : nat) : M rng nat :=
  fun s => let (j, s') := randbelow n s in (Ok j, s').

(** The loop of [random.shuffle]:
    [for i in reversed(range(1, len(x))): j = randbelow(i + 1); swap]. *)
Fixpoint shuffle_from {A} (i : nat) (x : list A) : M rng (list A) :=
  match i with
  | O => ret x
  | S i' =>
      let! j := _randbelow (i + 1) in
      let! x := lift (swap_items i j x) in
      shuffle_from i' x
  end.

Definition random_shuffle {A} (x : list A) : M rng (list A) :=
  shuffle_from (length x - 1) x.

(** [collate_nsp_pairs] *)
Definition collate_nsp_pairs (batch : list (View * View))
  : M rng ((Features * Features) * list spec_float) :=
  let lefts := list_mul (fst <$> batch) 2 in
  let rights := snd <$> batch in
  let rights_ := rights in
  let! rights_ := random_shuffle rights_ in
  let rights := rights ++ rights_ in
  let targets :=
    torch_cat [torch_ones (length batch); torch_zeros (length batch)] in
  ret ((padded_collate_wo_target lefts, padded_collate_wo_target rights),
       tensor_float targets).

End Collate.

(** ** Vocabulary of the statements *)

(** The id lists a call leaves on the object. *)
Definition split_ids (r : result NspDataModuleTrain)
  : result (option (list value) * option (list value)) :=
  match r with
  | Ok self => Ok (_train_ids self, _valid_ids self)
  | Raise e => Raise e
  end.

(** The lengths of the id lists a call leaves on the object, train first. *)
Definition split_sizes (r : result NspDataModuleTrain) : result (nat * nat) :=
  match r with
  | Ok self =>
      match _train_ids self, _valid_ids self with
      | Some train, Some valid => Ok (length train, length valid)
      | _, _ => Raise (TypeError "object of type 'NoneType' has no len()")
      end
  | Raise e => Raise e
  end.

(** The object with another value under [setup.valid_split_seed]. *)
Definition with_valid_split_seed (seed : option Z) (self : NspDataModuleTrain)
  : NspDataModuleTrain :=
  let sc := setup_conf self in
  {| _type := _type self;
     setup_conf :=
       {| conf_col_id := conf_col_id sc; dataset_files := dataset_files sc;
          dataset_parts := dataset_parts sc; split_by := split_by sc;
          valid_size := valid_size sc; valid_split_seed := seed |};
     train_conf := train_conf self; valid_conf := valid_conf self;
     col_id := col_id self; category_max_size := category_max_size self;
     train_dataset := train_dataset self; valid_dataset := valid_dataset self;
     _train_ids := _train_ids self; _valid_ids := _valid_ids self |}.

End Nsp.

(** * [ptls/lightning_modules/coles_module.py] *)

Module Coles.

(** Python objects as the constructor builds them. *)
Inductive obj :=
| PyNone
| Num (n : number)
| Str (s : string)
| Instance (cls : string) (kwargs : list (string * obj)).

(** The names bound at module level: the four imports and the class. *)
Definition module_globals : gmap string obj :=
  list_to_map (map (fun n => (n, Instance "type" [("__name__", Str n)]))
    [ "instantiate"; "ABSModule"; "ContrastiveLoss"; "BatchRecallTopPL";
      "CoLESModule" ]).

(** Calling a class object with keyword arguments. *)
Definition call (f : obj) (kwargs : list (string * obj)) : result obj :=
  match f with
  | Instance "type" [("__name__", Str n)] => Ok (Instance n kwargs)
  | _ => Raise (TypeError "object is not callable")
  end.

(** The fields [ABSModule.__init__] receives, and [_head]. *)
Record CoLESModule := {
  validation_metric : obj;
  seq_encoder : obj;
  loss : obj;
  optimizer_partial : obj;
  lr_scheduler_partial : obj;
  _head : obj;
}.

Definition float_0_5 : float := S754_finite false 4503599627370496 (-53).

Section Init.

Variable G : gmap string obj.

(** The outcome of [ABSModule.__init__], the constructor of the base
    class, on the five arguments of lines 23 to 27. *)
Variable ABSModule_init : obj -> obj -> obj -> obj -> obj -> result unit.

Definition bind_result {A B} (r : result A) (k : A -> result B) : result B :=
  match r with
  | Ok a => k a
  | Raise e => Raise e
  end.

(** [CoLESModule.__init__]; an argument left out is [PyNone]. *)
Definition init (validation_metric seq_encoder head loss optimizer_partial
                 lr_scheduler_partial : obj) : result CoLESModule :=
  bind_result
    (match loss with
     | PyNone =>
         bind_result (load_global G "HardNegativePairSelector") (fun selector =>
         bind_result (call selector [("neg_count", Num (PyInt 5))])
           (fun sampling_strategy =>
         bind_result (load_global G "ContrastiveLoss") (fun contrastive =>
         call contrastive [("margin", Num (PyFloat float_0_5));
                           ("sampling_strategy", sampling_strategy)])))
     | _ => Ok loss
     end) (fun loss =>
  bind_result
    (match validation_metric with
     | PyNone =>
         bind_result (load_global G "BatchRecallTopPL") (fun metric =>
         call metric [("K", Num (PyInt 4)); ("metric", Str "cosine")])
     | _ => Ok validation_metric
     end) (fun validation_metric =>
  bind_result
    (ABSModule_init validation_metric seq_encoder loss optimizer_partial
       lr_scheduler_partial) (fun _ =>
  Ok {| validation_metric := validation_metric;
        seq_encoder := seq_encoder;
        loss := loss;
        optimizer_partial := optimizer_partial;
        lr_scheduler_partial := lr_scheduler_partial;
        _head := head |}))).

End Init.

End Coles.

(** * Concrete inputs

    Configurations, records and generators the model is run on. *)

Module Examples.
Import Nsp.

Definition float_of_ratio (a b : Z) : float :=
  SFdiv prec64 emax64 (binary_normalize prec64 emax64 a 0 false)
    (binary_normalize prec64 emax64 b 0 false).

(** The doubles nearest to 0.19 and 0.2, and one half. *)
Definition float_0_19 : float := Eval vm_compute in float_of_ratio 19 100.
Definition float_0_2 : float := Eval vm_compute in float_of_ratio 2 10.
Definition float_one_half : float := Eval vm_compute in float_of_ratio 1 2.

Definition row_of_id (i : Z) : Row :=
  {[ "client_id" := VInt i; "amount" := VSeq [i; i + 1] ]}.

Definition rows_of_ids (ids : list Z) : list Row := row_of_id <$> ids.

(** A files source split by [split_by], with the given type, validation
    fraction and seed. *)
Definition files_module (ty sb : string) (vs : number) (seed : Z)
  : NspDataModuleTrain :=
  {| _type := ty;
     setup_conf :=
       {| conf_col_id := Some "client_id";
          dataset_files := Some {| data_path := Some "data/train.parquet" |};
          dataset_parts := None;
          split_by := Some sb;
          valid_size := Some vs;
          valid_split_seed := Some seed |};
     train_conf :=
       {| min_seq_len := Some 1; buffer_size := Some 100;
          train_split_strategy := Some [("cnt", PyInt 2)];
          trx_dropout := Some (PyFloat float_0_2);
          train_num_workers := Some 4; train_batch_size := Some 64 |};
     valid_conf :=
       {| valid_split_strategy := Some [("cnt", PyInt 2)];
          valid_num_workers := Some 4; valid_batch_size := Some 64 |};
     col_id := "client_id";
     category_max_size := [("mcc", 200)];
     train_dataset := None; valid_dataset := None;
     _train_ids := None; _valid_ids := None |}.

(** The same object over a partitioned source. *)
Definition parts_module (ty sb : string) : NspDataModuleTrain :=
  let self := files_module ty sb (PyFloat float_0_2) 42 in
  {| _type := _type self;
     setup_conf :=
       {| conf_col_id := Some "client_id";
          dataset_files := None;
          dataset_parts := Some [("data_path", "data/parts")];
          split_by := Some sb;
          valid_size := Some (PyFloat float_0_2);
          valid_split_seed := Some 42 |};
     train_conf := train_conf self; valid_conf := valid_conf self;
     col_id := col_id self; category_max_size := category_max_size self;
     train_dataset := None; valid_dataset := None;
     _train_ids := None; _valid_ids := None |}.

(** The same object with no source configured. *)
Definition sourceless_module : NspDataModuleTrain :=
  let self := files_module "map" "rows" (PyFloat float_0_2) 42 in
  {| _type := _type self;
     setup_conf :=
       {| conf_col_id := Some "client_id";
          dataset_files := None; dataset_parts := None;
          split_by := Some "rows";
          valid_size := Some (PyFloat float_0_2);
          valid_split_seed := Some 42 |};
     train_conf := train_conf self; valid_conf := valid_conf self;
     col_id := col_id self; category_max_size := category_max_size self;
     train_dataset := None; valid_dataset := None;
     _train_ids := None; _valid_ids := None |}.

(** External collaborators to run the model with: one file per path, a
    listing of two hash parts, a splitter that sends the first
    [seed mod (n + 1)] files to valid, and the reversal as the permutation
    a seeded generator draws. *)
Definition one_file (path : string) : list string := [path].

Definition two_parts (_ : parts_kwargs) : result partitioned_data_files :=
  Ok {| pdf_data_path := "data/parts"; pdf_dt_parts := ["dt=1"];
        pdf_hash_parts := ["hash=0"; "hash=1"] |}.

Definition seeded_splitter (files : list string) (_ : number) (seed : Z)
  : list string * list string :=
  let k := Z.to_nat (seed mod (Z.of_nat (length files) + 1)) in
  (drop k files, take k files).

Definition reversal (_ : Z) (n : nat) : list nat := reverse (seq 0 n).

(** A record source: every dataset yields the records of [ids]. *)
Definition yields (ids : list Z) (_ : dataset) : list Row := rows_of_ids ids.

(** A linear congruential stand-in for the generator of [random]. *)
Definition lcg_randbelow (n : nat) (s : Z) : nat * Z :=
  (Z.to_nat (s mod Z.of_nat n), (1103515245 * s + 12345) mod 2147483648).

Definition four_pairs : list (string * string) :=
  [("l1", "r1"); ("l2", "r2"); ("l3", "r3"); ("l4", "r4")].

(** A configuration tree and a model for the constructor. *)
Definition conf_of (ty : option string) : conf_t :=
  let self := files_module "map" "files" (PyFloat float_0_2) 42 in
  {| conf_type := ty; conf_setup := Some (setup_conf self);
     conf_train := Some (train_conf self); conf_valid := Some (valid_conf self) |}.

Definition conf_without_train (ty : option string) : conf_t :=
  {| conf_type := ty; conf_setup := conf_setup (conf_of ty);
     conf_train := None; conf_valid := conf_valid (conf_of ty) |}.

Definition encoder_model : pl_module_t :=
  {| pl_seq_encoder := Some {| encoder_category_max_size := Some [("mcc", 200)] |} |}.

End Examples.

(** * Properties *)

(** ** Batch assembly *)

Module CollateFacts.
Import Nsp.

Section Shuffle.

Context {rng : Type}.
Variable randbelow : nat -> rng -> nat * rng.

(** The contract of the draw: an index below its argument. *)
Hypothesis randbelow_lt : forall n s, (0 < n)%nat -> ((randbelow n s).1 < n)%nat.

Lemma swap_items_Permutation {A} (i j : nat) (x y : list A) :
  swap_items i j x = Ok y -> y ≡ₚ x.
Proof.
  unfold swap_items.
  destruct (x !! j) as [xj|] eqn:Hj; [|done].
  destruct (x !! i) as [xi|] eqn:Hi; [|done].
  intros [= <-].
  destruct (decide (i = j)) as [->|Hne].
  - assert (xi = xj) as -> by congruence.
    rewrite !list_insert_id; [done..|].
    by rewrite list_insert_id.
  - pose proof (lookup_lt_Some _ _ _ Hi) as Hli.
    pose proof (lookup_lt_Some _ _ _ Hj) as Hlj.
    assert (<[i:=xj]> x !! j = Some xj) as Hj'
      by (by rewrite list_lookup_insert_ne).
    assert (<[i:=xj]> x !! i = Some xj) as Hi'
      by (by rewrite list_lookup_insert_eq).
    assert (<[j:=xi]> (<[i:=xj]> x) !! j = Some xi) as Hj''.
    { rewrite list_lookup_insert_eq; [done|]. by rewrite length_insert. }
    etrans; [apply (delete_Permutation _ _ _ Hj'')|].
    symmetry. etrans; [apply (delete_Permutation _ _ _ Hi)|].
    constructor. symmetry.
    assert (delete j (<[j:=xi]> (<[i:=xj]> x)) = delete j (<[i:=xj]> x)) as ->.
    { apply list_eq; intros k.
      destruct (decide (k < j)%nat).
      - rewrite !list_lookup_delete_lt by done.
        rewrite list_lookup_insert_ne by lia. done.
      - rewrite !list_lookup_delete_ge by lia.
        rewrite list_lookup_insert_ne by lia. done. }
    assert (delete i (<[i:=xj]> x) = delete i x) as Hd.
    { apply list_eq; intros k.
      destruct (decide (k < i)%nat).
      - rewrite !list_lookup_delete_lt by done.
        rewrite list_lookup_insert_ne by lia. done.
      - rewrite !list_lookup_delete_ge by lia.
        rewrite list_lookup_insert_ne by lia. done. }
    apply (Permutation_cons_inv (a := xj)).
    etrans; [symmetry; apply (delete_Permutation _ _ _ Hj')|].
    rewrite <- Hd.
    apply (delete_Permutation _ _ _ Hi').
Qed.

Lemma swap_items_in_range {A} (i j : nat) (x : list A) :
  (i < length x)%nat -> (j < length x)%nat -> exists y, swap_items i j x = Ok y.
Proof.
  intros Hi Hj. unfold swap_items.
  destruct (lookup_lt_is_Some_2 _ _ Hi) as [xi ->].
  destruct (lookup_lt_is_Some_2 _ _ Hj) as [xj ->].
  eauto.
Qed.

(** The loop of [random.shuffle] returns, and returns a rearrangement. *)
Lemma shuffle_from_Permutation {A} (i : nat) (x : list A) (s : rng) :
  (i < length x)%nat \/ i = 0%nat ->
  exists y s', shuffle_from randbelow i x s = (Ok y, s') /\ y ≡ₚ x.
Proof.
  revert x s. induction i as [|i IH]; intros x s Hi.
  - exists x, s. done.
  - destruct Hi as [Hi|]; [|done].
    cbn [shuffle_from]. unfold bind at 1, _randbelow.
    pose proof (randbelow_lt (S i + 1) s ltac:(lia)) as Hj.
    destruct (randbelow (S i + 1) s) as [j s1]; simpl in Hj.
    destruct (swap_items_in_range (S i) j x) as [y Hy]; [lia..|].
    unfold bind at 1, lift. rewrite Hy.
    pose proof (swap_items_Permutation _ _ _ _ Hy) as Hp.
    destruct (IH y s1) as (z & s2 & Hz & Hpz).
    { left. rewrite (Permutation_length Hp). lia. }
    exists z, s2. split; [done|]. by rewrite Hpz.
Qed.

Lemma random_shuffle_Permutation {A} (x : list A) (s : rng) :
  exists y s', random_shuffle randbelow x s = (Ok y, s') /\ y ≡ₚ x.
Proof.
  apply shuffle_from_Permutation.
  destruct x; simpl; [by right | left; lia].
Qed.


Context {View Features : Type}.
Variable padded_collate_wo_target : list View -> Features.

(** One run of [collate_nsp_pairs]: the lists handed to the padding
    collation and the label tensor. *)
Lemma collate_nsp_pairs_run (batch : list (View * View)) (s : rng) :
  exists shuffled s',
    collate_nsp_pairs randbelow padded_collate_wo_target batch s =
      (Ok ((padded_collate_wo_target (batch.*1 ++ batch.*1),
            padded_collate_wo_target (batch.*2 ++ shuffled)),
           replicate (length batch) (float32_of_int64 1) ++
           replicate (length batch) (float32_of_int64 0)), s')
    /\ shuffled ≡ₚ batch.*2.
Proof.
  destruct (random_shuffle_Permutation (batch.*2) s) as (y & s' & Hrun & Hp).
  exists y, s'. split; [|done].
  unfold collate_nsp_pairs, bind. rewrite Hrun.
  unfold ret, list_mul, tensor_float, torch_cat, torch_ones, torch_zeros.
  simpl. rewrite !app_nil_r, fmap_app, !fmap_replicate. done.
Qed.

(** C1. For a batch of [n] pairs, [collate_nsp_pairs] returns: the two
    lists it pads have [2 n] examples each, and the label tensor is [n]
    ones followed by [n] zeros. *)
Theorem collate_nsp_pairs_labels (batch : list (View * View)) (s : rng) :
  exists lefts rights s',
    collate_nsp_pairs randbelow padded_collate_wo_target batch s =
      (Ok ((padded_collate_wo_target lefts, padded_collate_wo_target rights),
           replicate (length batch) (float32_of_int64 1) ++
           replicate (length batch) (float32_of_int64 0)), s')
    /\ length lefts = (2 * length batch)%nat
    /\ length rights = (2 * length batch)%nat.
Proof.
  destruct (collate_nsp_pairs_run batch s) as (y & s' & Hrun & Hp).
  eexists _, _, s'. split; [exact Hrun|].
  rewrite !length_app, !length_fmap, (Permutation_length Hp), length_fmap.
  lia.
Qed.

(** C2. In the [2 n] examples, the lefts of the second half are the lefts
    of the first half, item for item, and the rights of the second half
    are a rearrangement of the rights of the first half (the rights of the
    batch). *)
Theorem collate_nsp_pairs_halves (batch : list (View * View)) (s : rng) :
  exists lefts rights labels s',
    collate_nsp_pairs randbelow padded_collate_wo_target batch s =
      (Ok ((padded_collate_wo_target lefts, padded_collate_wo_target rights),
           labels), s')
    /\ take (length batch) lefts = batch.*1
    /\ drop (length batch) lefts = take (length batch) lefts
    /\ take (length batch) rights = batch.*2
    /\ drop (length batch) rights ≡ₚ take (length batch) rights.
Proof.
  destruct (collate_nsp_pairs_run batch s) as (y & s' & Hrun & Hp).
  eexists _, _, _, s'. split; [exact Hrun|].
  assert (length batch = length batch.*1) as H1 by (by rewrite length_fmap).
  assert (length batch = length batch.*2) as H2 by (by rewrite length_fmap).
  rewrite H1 at 1 2 3. rewrite H2 at 1 2 3.
  rewrite !take_app_length, !drop_app_length. done.
Qed.

End Shuffle.

(** The label values are the 32-bit floats one and zero. *)
Lemma label_values :
  float32_of_int64 1 = S754_finite false 8388608 (-23) /\
  float32_of_int64 0 = S754_zero false.
Proof. split; reflexivity. Qed.

Lemma lcg_randbelow_lt (n : nat) (s : Z) :
  (0 < n)%nat -> ((Examples.lcg_randbelow n s).1 < n)%nat.
Proof.
  intros Hn. simpl.
  pose proof (Z.mod_pos_bound s (Z.of_nat n) ltac:(lia)). lia.
Qed.

Lemma collate_nsp_pairs_labels_witness :
  exists lefts rights s',
    collate_nsp_pairs Examples.lcg_randbelow (fun v : list string => v)
      Examples.four_pairs 2024 =
      (Ok ((lefts, rights),
           replicate 4 (float32_of_int64 1) ++ replicate 4 (float32_of_int64 0)),
       s')
    /\ length lefts = 8%nat /\ length rights = 8%nat.
Proof.
  exact (collate_nsp_pairs_labels Examples.lcg_randbelow lcg_randbelow_lt
           (fun v : list string => v) Examples.four_pairs 2024).
Defined.

Lemma collate_nsp_pairs_halves_witness :
  exists lefts rights labels s',
    collate_nsp_pairs Examples.lcg_randbelow (fun v : list string => v)
      Examples.four_pairs 2024 = (Ok ((lefts, rights), labels), s')
    /\ take 4 lefts = ["l1"; "l2"; "l3"; "l4"]
    /\ drop 4 lefts = take 4 lefts
    /\ take 4 rights = ["r1"; "r2"; "r3"; "r4"]
    /\ drop 4 rights ≡ₚ take 4 rights.
Proof.
  exact (collate_nsp_pairs_halves Examples.lcg_randbelow lcg_randbelow_lt
           (fun v : list string => v) Examples.four_pairs 2024).
Defined.

(** The scenario of four pairs, run. *)
Example collate_four_pairs :
  (collate_nsp_pairs Examples.lcg_randbelow (fun v : list string => v)
     Examples.four_pairs 2024).1 =
  Ok ((["l1"; "l2"; "l3"; "l4"; "l1"; "l2"; "l3"; "l4"],
       ["r1"; "r2"; "r3"; "r4"; "r2"; "r4"; "r3"; "r1"]),
      float32_of_int64 <$> [1; 1; 1; 1; 0; 0; 0; 0]).
Proof. vm_compute. reflexivity. Qed.

End CollateFacts.

(** ** The row-level split *)

Module SplitFacts.
Import Nsp.

Section Determinism.
Context {W : Type}.
Variable G : gmap string global_obj.
Variable iter_dataset : dataset -> list Row.
Variable RandomState_permutation : Z -> nat -> list nat.

(** C6 fails on the code: the ids [split_by_rows] leaves do not depend on
    what is configured under [setup.valid_split_seed]; both draws are
    seeded with the literal 42. *)
Theorem split_by_rows_ignores_valid_split_seed (self : NspDataModuleTrain)
    (data_files : list string) (seed1 seed2 : option Z) (w : W) :
  split_ids (split_by_rows G iter_dataset RandomState_permutation
               (with_valid_split_seed seed1 self) data_files w).1 =
  split_ids (split_by_rows G iter_dataset RandomState_permutation
               (with_valid_split_seed seed2 self) data_files w).1.
Proof.
  unfold split_by_rows, bind, lift, ret. simpl.
  repeat match goal with
         | |- context [match ?r with Ok _ => _ | Raise _ => _ end] =>
             destruct r; simpl
         end; done.
Qed.

(** Where the helper is unbound, the call raises as soon as the records
    are read. *)
Lemma split_by_rows_unbound (self : NspDataModuleTrain)
    (data_files : list string) (w : W) :
  G !! "shuffle_client_list_reproducible" = None ->
  split_by_rows G iter_dataset RandomState_permutation self data_files w =
  (Raise match min_seq_len (train_conf self) with
         | Some _ => NameError "shuffle_client_list_reproducible"
         | None => KeyError "min_seq_len"
         end, w).
Proof.
  intros Hnone. unfold split_by_rows, bind, lift, load_global.
  destruct (min_seq_len (train_conf self)); simpl; [|done].
  by rewrite Hnone.
Qed.

End Determinism.

(** The helper is not among the names the module binds. *)
Lemma helper_unbound : module_globals !! "shuffle_client_list_reproducible" = None.
Proof. vm_compute. reflexivity. Qed.

(** Under the names the file binds, [split_by_rows] never returns: the
    call of [shuffle_client_list_reproducible], a name the module neither
    imports nor defines, raises as soon as the records are read. *)
Theorem split_by_rows_name_error {W : Type} (iter_dataset : dataset -> list Row)
    (RandomState_permutation : Z -> nat -> list nat)
    (self : NspDataModuleTrain) (data_files : list string) (w : W) :
  split_by_rows module_globals iter_dataset RandomState_permutation self data_files w =
  (Raise match min_seq_len (train_conf self) with
         | Some _ => NameError "shuffle_client_list_reproducible"
         | None => KeyError "min_seq_len"
         end, w).
Proof.
  apply split_by_rows_unbound. exact helper_unbound.
Qed.

(** C3 fails on the code: the row-level split assigns no id to train or to
    valid.  Whatever the records, the configuration and the permutation a
    seeded generator draws, the call ends in an exception at line 178 or at
    line 180, before the lists of lines 193 and 194 are built; with
    [train.min_seq_len] configured the exception is the [NameError] of the
    unbound [shuffle_client_list_reproducible]. *)
Theorem split_by_rows_no_partition {W : Type} (iter_dataset : dataset -> list Row)
    (RandomState_permutation : Z -> nat -> list nat)
    (self : NspDataModuleTrain) (data_files : list string) (w : W) :
  split_ids (split_by_rows module_globals iter_dataset RandomState_permutation
               self data_files w).1 =
  Raise match min_seq_len (train_conf self) with
        | Some _ => NameError "shuffle_client_list_reproducible"
        | None => KeyError "min_seq_len"
        end.
Proof.
  rewrite (split_by_rows_unbound _ _ _ _ _ _ helper_unbound). reflexivity.
Qed.

(** C4 fails on the code: the row-level split selects no validation set,
    of any size.  For every number of records and every value under
    [setup.valid_size] the call ends at line 180 at the latest, so the
    size [int(len(list_ids) * valid_size)] of line 189 is never computed,
    and a caller that counts the ids of either list has nothing to
    count. *)
Theorem split_by_rows_no_valid_set {W : Type} (iter_dataset : dataset -> list Row)
    (RandomState_permutation : Z -> nat -> list nat)
    (self : NspDataModuleTrain) (data_files : list string) (w : W) :
  split_sizes (split_by_rows module_globals iter_dataset RandomState_permutation
                 self data_files w).1 =
  Raise match min_seq_len (train_conf self) with
        | Some _ => NameError "shuffle_client_list_reproducible"
        | None => KeyError "min_seq_len"
        end.
Proof.
  rewrite (split_by_rows_unbound _ _ _ _ _ _ helper_unbound). reflexivity.
Qed.


(** The module as it stands on a files source split by rows, with
    [train.min_seq_len = 1]: two records of id 7 and a validation fraction
    of one half give no lists at all. *)
Lemma split_by_rows_ids_7_7 :
  split_ids
    (split_by_rows module_globals (Examples.yields [7; 7]) Examples.reversal
       (Examples.files_module "map" "rows" (PyFloat Examples.float_one_half) 42)
       ["data/train.parquet"] tt).1 =
  Raise (NameError "shuffle_client_list_reproducible").
Proof. vm_compute. reflexivity. Qed.

(** Ten records and a validation fraction of 0.19: no list to count. *)
Lemma split_by_rows_ten_ids :
  split_sizes
    (split_by_rows module_globals
       (Examples.yields [0; 1; 2; 3; 4; 5; 6; 7; 8; 9]) Examples.reversal
       (Examples.files_module "map" "rows" (PyFloat Examples.float_0_19) 42)
       ["data/train.parquet"] tt).1 =
  Raise (NameError "shuffle_client_list_reproducible").
Proof. vm_compute. reflexivity. Qed.


End SplitFacts.

(** ** Setup, augmentations and loaders *)

Module SetupFacts.
Import Nsp.

Section Setup.
Context {W : Type}.
Variable G : gmap string global_obj.
Variable ParquetFiles : string -> list string.
Variable PartitionedDataFiles : parts_kwargs -> result partitioned_data_files.
Variable iter_dataset : dataset -> list Row.
Variable ListSplitter : list string -> number -> Z -> list string * list string.
Variable RandomState_permutation : Z -> nat -> list nat.

Local Abbreviation prepare :=
  (prepare_data G ParquetFiles PartitionedDataFiles iter_dataset ListSplitter
     RandomState_permutation).

(** C7. [prepare_data] raises, and builds no dataset, when no source is
    configured, when [split_by] names no strategy of the configured source
    and when a partitioned source is to be split by rows; in the last two
    cases over a partitioned source the listing of the parts comes first
    and its own failure is the exception raised. *)
Theorem prepare_data_configuration_errors (self : NspDataModuleTrain) (w : W) :
  (dataset_files (setup_conf self) = None ->
   dataset_parts (setup_conf self) = None ->
   prepare self w =
     (Raise (AttributeError
        "Missing dataset definition. One of `dataset_parts` or `dataset_files` expected"),
      w))
  /\ (forall sb, split_by (setup_conf self) = Some sb ->
      is_Some (dataset_files (setup_conf self)) ->
      sb <> "files" -> sb <> "rows" ->
      prepare self w =
        (Raise (AttributeError ("Unknown split strategy: " +:+ sb)), w))
  /\ (forall sb kwargs, split_by (setup_conf self) = Some sb ->
      dataset_files (setup_conf self) = None ->
      dataset_parts (setup_conf self) = Some kwargs ->
      sb <> "hash_id" ->
      prepare self w =
        (Raise match PartitionedDataFiles kwargs with
               | Raise e => e
               | Ok _ =>
                   if decide (sb = "rows") then
                     NotImplementedError
                       "Split by rows aren't supported for partitioned dataset"
                   else AttributeError ("Unknown split strategy: " +:+ sb)
               end, w)).
Proof.
  split; [|split].
  - intros Hf Hp. unfold prepare_data, bind, raise. by rewrite Hf, Hp.
  - intros sb Hsb [df Hf] H1 H2.
    unfold prepare_data, setup_iterable_files, bind, lift, raise.
    rewrite Hf, Hsb. simpl.
    by rewrite !decide_False.
  - intros sb kwargs Hsb Hf Hp H1.
    unfold prepare_data, setup_iterable_parts, bind, lift, raise.
    rewrite Hf, Hp, Hsb. simpl.
    destruct (PartitionedDataFiles kwargs) as [files|e]; [|done].
    simpl. rewrite decide_False by done.
    by destruct (decide (sb = "rows")).
Qed.

(** C8. The chain built for train starts with the dropout stage; the
    chain built for valid is built whatever the configuration and has no
    dropout stage. *)
Theorem build_augmentations_dropout (self : NspDataModuleTrain) :
  (forall p, trx_dropout (train_conf self) = Some p ->
     build_augmentations self "train" = Ok [DropoutTrx p; sequence_pair_augmentation])
  /\ (forall augs, build_augmentations self "train" = Ok augs ->
        exists p, DropoutTrx p ∈ augs)
  /\ build_augmentations self "valid" = Ok [sequence_pair_augmentation]
  /\ (forall augs p, build_augmentations self "valid" = Ok augs ->
        DropoutTrx p ∉ augs).
Proof.
  unfold build_augmentations. simpl. repeat split.
  - by intros p ->.
  - intros augs. destruct (trx_dropout (train_conf self)) as [p|]; [|done].
    simpl. intros [= <-]. exists p. by left.
  - intros augs p [= <-] Hin.
    apply list_elem_of_singleton in Hin. done.
Qed.

(** C9. In map mode the train loader is built with [shuffle=True]; the
    valid loader is built without a [shuffle] argument in every mode, so
    it does not shuffle. Both are built as soon as the worker count and
    the batch size are configured. *)
Theorem dataloaders_shuffle (self : NspDataModuleTrain) :
  (forall dl, _type self = "map" -> train_dataloader self = Ok dl ->
     dl_shuffle dl = Some true /\ DataLoader_shuffles dl = true)
  /\ (forall dl, val_dataloader self = Ok dl ->
        dl_shuffle dl = None /\ DataLoader_shuffles dl = false)
  /\ (is_Some (train_num_workers (train_conf self)) ->
      is_Some (train_batch_size (train_conf self)) ->
      exists dl, train_dataloader self = Ok dl)
  /\ (is_Some (valid_num_workers (valid_conf self)) ->
      is_Some (valid_batch_size (valid_conf self)) ->
      exists dl, val_dataloader self = Ok dl).
Proof.
  unfold train_dataloader, val_dataloader, DataLoader_shuffles.
  destruct (train_num_workers (train_conf self)) as [nw|],
           (train_batch_size (train_conf self)) as [bs|],
           (valid_num_workers (valid_conf self)) as [vnw|],
           (valid_batch_size (valid_conf self)) as [vbs|]; simpl.
  all: split; [intros dl Hmap Hdl|split; [intros dl Hdl|split; intros Hnw Hbs]].
  all: try discriminate Hdl.
  all: try (by destruct Hnw).
  all: try (by destruct Hbs).
  all: try (injection Hdl as <-; simpl; rewrite ?Hmap; by split).
  all: eauto.
Qed.

End Setup.

Lemma prepare_data_configuration_errors_witness :
  prepare_data (W := unit) module_globals Examples.one_file
    Examples.two_parts (Examples.yields [1; 2; 3]) Examples.seeded_splitter
    Examples.reversal Examples.sourceless_module tt =
    (Raise (AttributeError
       "Missing dataset definition. One of `dataset_parts` or `dataset_files` expected"),
     tt)
  /\ prepare_data (W := unit) module_globals Examples.one_file
       Examples.two_parts (Examples.yields [1; 2; 3]) Examples.seeded_splitter
       Examples.reversal
       (Examples.files_module "map" "by_client" (PyFloat Examples.float_0_2) 42) tt =
       (Raise (AttributeError "Unknown split strategy: by_client"), tt)
  /\ prepare_data (W := unit) module_globals Examples.one_file
       Examples.two_parts (Examples.yields [1; 2; 3]) Examples.seeded_splitter
       Examples.reversal (Examples.parts_module "iterable" "rows") tt =
       (Raise (NotImplementedError
          "Split by rows aren't supported for partitioned dataset"), tt).
Proof.
  split; [|split].
  - apply (prepare_data_configuration_errors module_globals
             Examples.one_file Examples.two_parts (Examples.yields [1; 2; 3])
             Examples.seeded_splitter Examples.reversal
             Examples.sourceless_module tt); reflexivity.
  - apply (prepare_data_configuration_errors module_globals
             Examples.one_file Examples.two_parts (Examples.yields [1; 2; 3])
             Examples.seeded_splitter Examples.reversal
             (Examples.files_module "map" "by_client" (PyFloat Examples.float_0_2) 42)
             tt).
    + reflexivity.
    + simpl. eauto.
    + discriminate.
    + discriminate.
  - apply (proj2 (proj2 (prepare_data_configuration_errors
             module_globals
             Examples.one_file Examples.two_parts (Examples.yields [1; 2; 3])
             Examples.seeded_splitter Examples.reversal
             (Examples.parts_module "iterable" "rows") tt)))
      with (sb := "rows") (kwargs := [("data_path", "data/parts")]).
    + reflexivity.
    + reflexivity.
    + reflexivity.
    + discriminate.
Defined.

Lemma build_augmentations_dropout_witness :
  build_augmentations
    (Examples.files_module "map" "files" (PyFloat Examples.float_0_2) 42) "train" =
    Ok [DropoutTrx (PyFloat Examples.float_0_2); sequence_pair_augmentation]
  /\ build_augmentations
       (Examples.files_module "map" "files" (PyFloat Examples.float_0_2) 42) "valid" =
       Ok [sequence_pair_augmentation].
Proof.
  split.
  - apply (build_augmentations_dropout
             (Examples.files_module "map" "files" (PyFloat Examples.float_0_2) 42)).
    reflexivity.
  - apply (build_augmentations_dropout
             (Examples.files_module "map" "files" (PyFloat Examples.float_0_2) 42)).
Defined.

Lemma dataloaders_shuffle_witness :
  (exists dl,
     train_dataloader
       (Examples.files_module "map" "files" (PyFloat Examples.float_0_2) 42) = Ok dl
     /\ dl_shuffle dl = Some true)
  /\ (exists dl,
        val_dataloader
          (Examples.files_module "map" "files" (PyFloat Examples.float_0_2) 42) = Ok dl
        /\ dl_shuffle dl = None /\ DataLoader_shuffles dl = false).
Proof.
  pose proof (dataloaders_shuffle
                (Examples.files_module "map" "files" (PyFloat Examples.float_0_2) 42))
    as (Htrain & Hval & Htotal & Hvtotal).
  split.
  - destruct Htotal as [dl Hdl]; [simpl; eauto..|].
    exists dl. split; [done|]. by apply Htrain.
  - destruct Hvtotal as [dl Hdl]; [simpl; eauto..|].
    exists dl. split; [done|]. by apply Hval.
Defined.


End SetupFacts.

(** ** File-level split and processing chains *)

Module ChainFacts.
Import Nsp.

Section Chains.
Context {W : Type}.
Variable G : gmap string global_obj.
Variable ParquetFiles : string -> list string.
Variable PartitionedDataFiles : parts_kwargs -> result partitioned_data_files.
Variable iter_dataset : dataset -> list Row.
Variable ListSplitter : list string -> number -> Z -> list string * list string.
Variable RandomState_permutation : Z -> nat -> list nat.

(** The file-level split hands the configured fraction and the configured
    seed to the splitter, and the two datasets read the file lists it
    returns. *)
Theorem setup_iterable_files_passes_seed (self : NspDataModuleTrain) (w : W)
    (path : string) (vs : number) (seed : Z) (tr va : list stage) :
  split_by (setup_conf self) = Some "files" ->
  dataset_files (setup_conf self) = Some {| data_path := Some path |} ->
  valid_size (setup_conf self) = Some vs ->
  valid_split_seed (setup_conf self) = Some seed ->
  build_iterable_processing self "train" = Ok tr ->
  build_iterable_processing self "valid" = Ok va ->
  setup_iterable_files G ParquetFiles iter_dataset ListSplitter
    RandomState_permutation self w =
  (Ok (set_datasets self
         (ParquetDataset (ListSplitter (ParquetFiles path) vs seed).1
            (IterableChain tr)
            (if decide (_type self = "iterable") then true else false))
         (ParquetDataset (ListSplitter (ParquetFiles path) vs seed).2
            (IterableChain va) false)), w).
Proof.
  intros Hsb Hf Hvs Hseed Htr Hva.
  unfold setup_iterable_files, bind, lift, parquet_datasets.
  rewrite Hsb, Hf, Hvs, Hseed, Htr, Hva. reflexivity.
Qed.

(** Over a files source split by rows, [prepare_data] under the names the
    file binds ends in the [NameError] of [split_by_rows]. *)
Theorem prepare_data_rows_name_error (self : NspDataModuleTrain) (w : W)
    (path : string) (m : Z) :
  split_by (setup_conf self) = Some "rows" ->
  dataset_files (setup_conf self) = Some {| data_path := Some path |} ->
  min_seq_len (train_conf self) = Some m ->
  prepare_data module_globals ParquetFiles PartitionedDataFiles iter_dataset
    ListSplitter RandomState_permutation self w =
  (Raise (NameError "shuffle_client_list_reproducible"), w).
Proof.
  intros Hsb Hf Hm.
  unfold prepare_data, setup_iterable_files, bind, lift.
  rewrite Hf, Hsb. simpl.
  rewrite (SplitFacts.split_by_rows_unbound module_globals iter_dataset
             RandomState_permutation _ _ _ SplitFacts.helper_unbound).
  by rewrite Hm.
Qed.

End Chains.

(** The stages of the chain built for [part]: the length filter is a
    stage of the train chain only, and no augmentation list of the valid
    chain holds a dropout. *)
Theorem build_iterable_processing_valid (self : NspDataModuleTrain)
    (stages : list stage) :
  build_iterable_processing self "valid" = Ok stages ->
  (forall n, SeqLenFilter n ∉ stages)
  /\ (forall b, IterableShuffle b ∉ stages)
  /\ (forall augs, IterableAugmentations augs ∈ stages ->
        augs = [sequence_pair_augmentation]).
Proof.
  unfold build_iterable_processing, build_augmentations. simpl.
  destruct (dataset_files (setup_conf self)) as [df|];
    [destruct (split_by (setup_conf self)) as [sb|]; simpl; [|done];
     destruct (decide (sb = "rows"))|];
    (destruct (decide (_type self = "iterable"));
     [destruct (valid_split_strategy (valid_conf self)) as [c|]; simpl; [|done]|]);
    intros [= <-]; repeat split; intros;
    repeat match goal with
           | H : _ ∈ _ :: _ |- _ => apply elem_of_cons in H as [H|H]; try discriminate H
           | H : _ ∈ [] |- _ => by apply elem_of_nil in H
           | |- _ ∉ _ => intros ?
           end;
    try congruence.
Qed.

Lemma prepare_data_rows_name_error_witness :
  prepare_data (W := unit) module_globals Examples.one_file Examples.two_parts
    (Examples.yields [1; 2; 3]) Examples.seeded_splitter Examples.reversal
    (Examples.files_module "map" "rows" (PyFloat Examples.float_0_2) 42) tt =
  (Raise (NameError "shuffle_client_list_reproducible"), tt).
Proof.
  apply (prepare_data_rows_name_error Examples.one_file Examples.two_parts
           (Examples.yields [1; 2; 3]) Examples.seeded_splitter Examples.reversal
           (Examples.files_module "map" "rows" (PyFloat Examples.float_0_2) 42) tt
           "data/train.parquet" 1); reflexivity.
Defined.

Lemma setup_iterable_files_passes_seed_witness :
  exists tr va,
    setup_iterable_files (W := unit) module_globals Examples.one_file
      (Examples.yields [1; 2; 3]) Examples.seeded_splitter Examples.reversal
      (Examples.files_module "iterable" "files" (PyFloat Examples.float_0_2) 1) tt =
    (Ok (set_datasets
           (Examples.files_module "iterable" "files" (PyFloat Examples.float_0_2) 1)
           (ParquetDataset [] (IterableChain tr) true)
           (ParquetDataset ["data/train.parquet"] (IterableChain va) false)), tt).
Proof.
  eexists _, _.
  apply (setup_iterable_files_passes_seed module_globals Examples.one_file
           (Examples.yields [1; 2; 3]) Examples.seeded_splitter Examples.reversal
           (Examples.files_module "iterable" "files" (PyFloat Examples.float_0_2) 1) tt
           "data/train.parquet" (PyFloat Examples.float_0_2) 1);
    reflexivity.
Defined.

Lemma build_iterable_processing_valid_witness :
  (forall n, SeqLenFilter n ∉
     [FeatureTypeCast_int "client_id"; FeatureFilter true;
      CategorySizeClip [("mcc", 200)];
      IterableSplittingDataset (split_strategy_create [("cnt", PyInt 2)]);
      IterableAugmentations [sequence_pair_augmentation]])
  /\ (forall b, IterableShuffle b ∉
     [FeatureTypeCast_int "client_id"; FeatureFilter true;
      CategorySizeClip [("mcc", 200)];
      IterableSplittingDataset (split_strategy_create [("cnt", PyInt 2)]);
      IterableAugmentations [sequence_pair_augmentation]])
  /\ (forall augs, IterableAugmentations augs ∈
     [FeatureTypeCast_int "client_id"; FeatureFilter true;
      CategorySizeClip [("mcc", 200)];
      IterableSplittingDataset (split_strategy_create [("cnt", PyInt 2)]);
      IterableAugmentations [sequence_pair_augmentation]] ->
        augs = [sequence_pair_augmentation]).
Proof.
  apply (build_iterable_processing_valid
           (Examples.files_module "iterable" "files" (PyFloat Examples.float_0_2) 1)).
  reflexivity.
Defined.

(** The file-level split does depend on the seed: with seed 2 the one
    file goes to train, with seed 1 (above) to valid. *)
Example files_split_seed_2 :
  exists tr va,
    setup_iterable_files (W := unit) module_globals Examples.one_file
      (Examples.yields [1; 2; 3]) Examples.seeded_splitter Examples.reversal
      (Examples.files_module "iterable" "files" (PyFloat Examples.float_0_2) 2) tt =
    (Ok (set_datasets
           (Examples.files_module "iterable" "files" (PyFloat Examples.float_0_2) 2)
           (ParquetDataset ["data/train.parquet"] (IterableChain tr) true)
           (ParquetDataset [] (IterableChain va) false)), tt).
Proof. eexists _, _. vm_compute. reflexivity. Qed.

End ChainFacts.

(** ** The CoLES module *)

Module ColesFacts.
Import Coles.

(** The selector is not among the names the module binds. *)
Lemma selector_unbound : Coles.module_globals !! "HardNegativePairSelector" = None.
Proof. vm_compute. reflexivity. Qed.

(** In any namespace that leaves the selector unbound, the default-loss
    branch raises before anything is built. *)
Lemma init_unbound_selector (G : gmap string obj)
    (ABSModule_init : obj -> obj -> obj -> obj -> obj -> result unit)
    (validation_metric seq_encoder head optimizer_partial lr_scheduler_partial : obj) :
  G !! "HardNegativePairSelector" = None ->
  Coles.init G ABSModule_init validation_metric seq_encoder head PyNone
    optimizer_partial lr_scheduler_partial =
  Raise (NameError "HardNegativePairSelector").
Proof.
  intros Hnone. unfold Coles.init, load_global.
  rewrite Hnone. reflexivity.
Qed.

(** C10. Without an explicit loss the constructor raises [NameError]: the
    default branch evaluates [HardNegativePairSelector], which the module
    does not bind. *)
Theorem init_without_loss_raises
    (ABSModule_init : obj -> obj -> obj -> obj -> obj -> result unit)
    (validation_metric seq_encoder head optimizer_partial lr_scheduler_partial : obj) :
  Coles.init Coles.module_globals ABSModule_init validation_metric seq_encoder
    head PyNone optimizer_partial lr_scheduler_partial =
  Raise (NameError "HardNegativePairSelector").
Proof.
  apply init_unbound_selector.
  exact selector_unbound.
Qed.

End ColesFacts.

(** ** Pairing of the examples *)

Module PairingFacts.
Import Nsp.

Section Pairing.
Context {rng View Features : Type}.
Variable randbelow : nat -> rng -> nat * rng.
Variable padded_collate_wo_target : list View -> Features.

(** A batch of one pair: no number is drawn from the generator, and the
    example labelled zero is the pair itself, so the one mismatched example
    of the output is a matched one. *)
Theorem collate_nsp_pairs_single (left right : View) (s : rng) :
  collate_nsp_pairs randbelow padded_collate_wo_target [(left, right)] s =
    (Ok ((padded_collate_wo_target [left; left],
          padded_collate_wo_target [right; right]),
         [float32_of_int64 1; float32_of_int64 0]), s).
Proof.
  unfold collate_nsp_pairs, random_shuffle, bind, lift, ret. simpl.
  reflexivity.
Qed.

Hypothesis randbelow_lt : forall n s, (0 < n)%nat -> ((randbelow n s).1 < n)%nat.

(** The first [n] examples are the pairs of the batch, in order and with
    label one; the last [n] carry label zero; over the whole output every
    right view of the batch occurs twice. *)
Theorem collate_nsp_pairs_matched (batch : list (View * View)) (s : rng) :
  exists lefts rights labels s',
    collate_nsp_pairs randbelow padded_collate_wo_target batch s =
      (Ok ((padded_collate_wo_target lefts, padded_collate_wo_target rights),
           labels), s')
    /\ zip (take (length batch) lefts) (take (length batch) rights) = batch
    /\ take (length batch) labels = replicate (length batch) (float32_of_int64 1)
    /\ drop (length batch) labels = replicate (length batch) (float32_of_int64 0)
    /\ rights ≡ₚ batch.*2 ++ batch.*2.
Proof.
  destruct (CollateFacts.collate_nsp_pairs_run randbelow randbelow_lt
              padded_collate_wo_target batch s) as (y & s' & Hrun & Hp).
  eexists _, _, _, s'. split; [exact Hrun|].
  assert (length batch = length batch.*1) as H1 by (by rewrite length_fmap).
  assert (length batch = length batch.*2) as H2 by (by rewrite length_fmap).
  repeat split.
  - rewrite H1 at 1. rewrite H2 at 1.
    rewrite !take_app_length. apply zip_fst_snd.
  - rewrite take_app_length'; [done|]. by rewrite length_replicate.
  - rewrite drop_app_length'; [done|]. by rewrite length_replicate.
  - by rewrite Hp.
Qed.

End Pairing.

Lemma collate_nsp_pairs_matched_witness :
  exists lefts rights labels s',
    collate_nsp_pairs Examples.lcg_randbelow (fun v : list string => v)
      Examples.four_pairs 7 = (Ok ((lefts, rights), labels), s')
    /\ zip (take 4 lefts) (take 4 rights) = Examples.four_pairs
    /\ take 4 labels = replicate 4 (float32_of_int64 1)
    /\ drop 4 labels = replicate 4 (float32_of_int64 0)
    /\ rights ≡ₚ Examples.four_pairs.*2 ++ Examples.four_pairs.*2.
Proof.
  exact (collate_nsp_pairs_matched Examples.lcg_randbelow (fun v : list string => v)
           CollateFacts.lcg_randbelow_lt Examples.four_pairs 7).
Defined.

End PairingFacts.

(** ** Construction, the other setup paths and the loaders *)

Module LifecycleFacts.
Import Nsp.

(** The constructor builds an object exactly when the base constructor
    returns, [type] is [map] or [iterable], the subtrees [setup], [train]
    and [valid] and the key [setup.col_id] are configured, and the model
    has [seq_encoder.category_max_size]; the object then holds these
    values, and neither datasets nor id lists yet.  An exception of the
    base constructor is the exception of the call; after it, another type
    fails the assertion, a missing [type] key raises [KeyError], and so
    does the first missing subtree of a configuration of a valid type. *)
Theorem init_checks_type (base : result unit) (conf : conf_t)
    (pl_module : pl_module_t) :
  (forall self, Nsp.init base conf pl_module = Ok self ->
     base = Ok tt
     /\ (_type self = "map" \/ _type self = "iterable")
     /\ conf_type conf = Some (_type self)
     /\ conf_setup conf = Some (setup_conf self)
     /\ conf_train conf = Some (train_conf self)
     /\ conf_valid conf = Some (valid_conf self)
     /\ conf_col_id (setup_conf self) = Some (col_id self)
     /\ (exists encoder, pl_seq_encoder pl_module = Some encoder
           /\ encoder_category_max_size encoder = Some (category_max_size self))
     /\ train_dataset self = None /\ valid_dataset self = None
     /\ _train_ids self = None /\ _valid_ids self = None)
  /\ (forall e, base = Raise e -> Nsp.init base conf pl_module = Raise e)
  /\ (forall ty, base = Ok tt -> conf_type conf = Some ty ->
        ty <> "map" -> ty <> "iterable" ->
        Nsp.init base conf pl_module = Raise AssertionError)
  /\ (base = Ok tt -> conf_type conf = None ->
        Nsp.init base conf pl_module = Raise (KeyError "type"))
  /\ (forall ty, base = Ok tt -> conf_type conf = Some ty ->
        ty = "map" \/ ty = "iterable" ->
        (conf_setup conf = None ->
           Nsp.init base conf pl_module = Raise (KeyError "setup"))
        /\ (forall sc, conf_setup conf = Some sc -> conf_train conf = None ->
              Nsp.init base conf pl_module = Raise (KeyError "train"))
        /\ (forall sc tc, conf_setup conf = Some sc -> conf_train conf = Some tc ->
              conf_valid conf = None ->
              Nsp.init base conf pl_module = Raise (KeyError "valid")))
  /\ (forall ty sc tc vc c encoder cms,
        base = Ok tt -> conf_type conf = Some ty ->
        ty = "map" \/ ty = "iterable" ->
        conf_setup conf = Some sc -> conf_train conf = Some tc ->
        conf_valid conf = Some vc -> conf_col_id sc = Some c ->
        pl_seq_encoder pl_module = Some encoder ->
        encoder_category_max_size encoder = Some cms ->
        Nsp.init base conf pl_module =
        Ok {| _type := ty; setup_conf := sc; train_conf := tc; valid_conf := vc;
              col_id := c; category_max_size := cms;
              train_dataset := None; valid_dataset := None;
              _train_ids := None; _valid_ids := None |}).
Proof.
  unfold Nsp.init. repeat apply conj.
  - intros self. destruct base as [[]|]; [|done].
    destruct (conf_type conf) as [ty|]; simpl; [|done].
    destruct (decide (ty = "map" \/ ty = "iterable")) as [Hty|]; [|done].
    destruct (conf_setup conf) as [sc|]; simpl; [|done].
    destruct (conf_train conf) as [tc|]; simpl; [|done].
    destruct (conf_valid conf) as [vc|]; simpl; [|done].
    destruct (conf_col_id sc) as [c|] eqn:Hc; simpl; [|done].
    destruct (pl_seq_encoder pl_module) as [encoder|]; simpl; [|done].
    destruct (encoder_category_max_size encoder) as [cms|] eqn:Hcms; simpl; [|done].
    intros [= <-]. simpl. repeat split; try done. by exists encoder.
  - by intros e ->.
  - intros ty -> -> H1 H2. simpl.
    rewrite decide_False; [done|]. by intros [?|?].
  - by intros -> ->.
  - intros ty -> -> Hty. simpl. rewrite decide_True by done.
    repeat apply conj.
    + by intros ->.
    + by intros sc -> ->.
    + by intros sc tc -> -> ->.
  - intros ty sc tc vc c encoder cms -> -> Hty -> -> -> Hc -> Hcms. simpl.
    rewrite decide_True by done. simpl. by rewrite Hc, Hcms.
Qed.

Lemma init_checks_type_witness :
  Nsp.init (Ok tt) (Examples.conf_of (Some "stream")) Examples.encoder_model =
    Raise AssertionError
  /\ Nsp.init (Ok tt) (Examples.conf_of None) Examples.encoder_model =
       Raise (KeyError "type")
  /\ Nsp.init (Raise (TypeError "__init__")) (Examples.conf_of (Some "map"))
       Examples.encoder_model = Raise (TypeError "__init__")
  /\ Nsp.init (Ok tt) (Examples.conf_without_train (Some "map"))
       Examples.encoder_model = Raise (KeyError "train")
  /\ exists self,
       Nsp.init (Ok tt) (Examples.conf_of (Some "iterable")) Examples.encoder_model =
         Ok self
       /\ _type self = "iterable" /\ col_id self = "client_id"
       /\ category_max_size self = [("mcc", 200)].
Proof.
  pose proof (init_checks_type (Ok tt) (Examples.conf_of (Some "stream"))
                Examples.encoder_model) as (_ & _ & H1 & _).
  pose proof (init_checks_type (Ok tt) (Examples.conf_of None)
                Examples.encoder_model) as (_ & _ & _ & H2 & _).
  pose proof (init_checks_type (Raise (TypeError "__init__"))
                (Examples.conf_of (Some "map")) Examples.encoder_model)
    as (_ & H3 & _).
  pose proof (init_checks_type (Ok tt) (Examples.conf_without_train (Some "map"))
                Examples.encoder_model) as (_ & _ & _ & _ & H4 & _).
  pose proof (init_checks_type (Ok tt) (Examples.conf_of (Some "iterable"))
                Examples.encoder_model) as (_ & _ & _ & _ & _ & H5).
  split; [|split; [|split; [|split]]].
  - apply (H1 "stream"); [reflexivity|reflexivity|discriminate..].
  - apply H2; reflexivity.
  - apply H3. reflexivity.
  - destruct (H4 "map" eq_refl eq_refl (or_introl eq_refl)) as (_ & H4' & _).
    exact (H4' _ eq_refl eq_refl).
  - eexists. split.
    + eapply (H5 "iterable"); first [reflexivity | by right].
    + repeat split.
Defined.

Section Paths.
Context {W : Type}.
Variable G : gmap string global_obj.
Variable ParquetFiles : string -> list string.
Variable PartitionedDataFiles : parts_kwargs -> result partitioned_data_files.
Variable iter_dataset : dataset -> list Row.
Variable ListSplitter : list string -> number -> Z -> list string * list string.
Variable RandomState_permutation : Z -> nat -> list nat.

(** Over a partitioned source split by [hash_id], the hash parts are
    split with the configured fraction and seed; both datasets read the
    same path and the same date parts, train the train hash parts and
    valid the valid ones; only the train dataset of an iterable module
    shuffles its files. *)
Theorem setup_iterable_parts_hash_id (self : NspDataModuleTrain) (w : W)
    (kwargs : parts_kwargs) (files : partitioned_data_files)
    (vs : number) (seed : Z) (tr va : list stage) :
  dataset_parts (setup_conf self) = Some kwargs ->
  PartitionedDataFiles kwargs = Ok files ->
  split_by (setup_conf self) = Some "hash_id" ->
  valid_size (setup_conf self) = Some vs ->
  valid_split_seed (setup_conf self) = Some seed ->
  build_iterable_processing self "train" = Ok tr ->
  build_iterable_processing self "valid" = Ok va ->
  setup_iterable_parts PartitionedDataFiles ListSplitter self w =
  (Ok (set_datasets self
         (PartitionedDataset (pdf_data_path files) (pdf_dt_parts files)
            (ListSplitter (pdf_hash_parts files) vs seed).1 (col_id self)
            (IterableChain tr)
            (if decide (_type self = "iterable") then true else false))
         (PartitionedDataset (pdf_data_path files) (pdf_dt_parts files)
            (ListSplitter (pdf_hash_parts files) vs seed).2 (col_id self)
            (IterableChain va) false)), w).
Proof.
  intros Hp Hfiles Hsb Hvs Hseed Htr Hva.
  unfold setup_iterable_parts, bind, lift, ret.
  rewrite Hp. simpl. rewrite Hfiles, Hsb. simpl.
  rewrite Hvs, Hseed, Htr, Hva. reflexivity.
Qed.

(** In map mode over a files source split by files, [prepare_data] reads
    both datasets into memory through chains that neither shuffle, split
    nor augment, and wraps the records with the split strategy and the
    augmentations of each part: dropout for train only. *)
Theorem prepare_data_map_files (self : NspDataModuleTrain) (w : W)
    (path : string) (vs : number) (seed m : Z) (tconf vconf : strategy_conf)
    (p : number) :
  _type self = "map" ->
  dataset_files (setup_conf self) = Some {| data_path := Some path |} ->
  split_by (setup_conf self) = Some "files" ->
  valid_size (setup_conf self) = Some vs ->
  valid_split_seed (setup_conf self) = Some seed ->
  min_seq_len (train_conf self) = Some m ->
  train_split_strategy (train_conf self) = Some tconf ->
  valid_split_strategy (valid_conf self) = Some vconf ->
  trx_dropout (train_conf self) = Some p ->
  prepare_data G ParquetFiles PartitionedDataFiles iter_dataset ListSplitter
    RandomState_permutation self w =
  (Ok (set_datasets self
         (MapSplittingDataset
            (iter_dataset
               (ParquetDataset (ListSplitter (ParquetFiles path) vs seed).1
                  (IterableChain
                     [SeqLenFilter m; FeatureTypeCast_int (col_id self);
                      FeatureFilter true;
                      CategorySizeClip (category_max_size self)])
                  false))
            (split_strategy_create tconf) [DropoutTrx p; sequence_pair_augmentation])
         (MapSplittingDataset
            (iter_dataset
               (ParquetDataset (ListSplitter (ParquetFiles path) vs seed).2
                  (IterableChain
                     [FeatureTypeCast_int (col_id self); FeatureFilter true;
                      CategorySizeClip (category_max_size self)])
                  false))
            (split_strategy_create vconf) [sequence_pair_augmentation])), w).
Proof.
  intros Hty Hf Hsb Hvs Hseed Hm Ht Hv Hp.
  unfold prepare_data, setup_iterable_files, bind, lift, parquet_datasets,
    build_iterable_processing.
  rewrite Hf, Hsb. simpl. rewrite Hvs, Hseed, Hm, Hty. simpl.
  rewrite Hty. simpl.
  unfold setup_map, bind, lift, ret, build_augmentations. simpl.
  rewrite Ht, Hv, Hp. simpl.
  reflexivity.
Qed.

(** [prepare_data] leaves the configuration of the object as it was and,
    when it returns, has set both datasets. *)
Theorem prepare_data_frame (self self' : NspDataModuleTrain) (w w' : W) :
  prepare_data G ParquetFiles PartitionedDataFiles iter_dataset ListSplitter
    RandomState_permutation self w = (Ok self', w') ->
  _type self' = _type self /\ setup_conf self' = setup_conf self
  /\ train_conf self' = train_conf self /\ valid_conf self' = valid_conf self
  /\ col_id self' = col_id self /\ category_max_size self' = category_max_size self
  /\ is_Some (train_dataset self') /\ is_Some (valid_dataset self')
  /\ w' = w.
Proof.
  assert (Hmap : forall s s1 (w1 w2 : W),
            setup_map iter_dataset s w1 = (Ok s1, w2) ->
            exists tr va, s1 = set_datasets s tr va /\ w2 = w1).
  { intros s s1 w1 w2. unfold setup_map, bind, lift, ret.
    repeat match goal with
           | |- context [match ?r with Ok _ => _ | Raise _ => _ end] =>
               destruct r; simpl
           | |- context [match ?r with Some _ => _ | None => _ end] =>
               destruct r; simpl
           end; intros [= <- <-]; eauto. }
  assert (Hpq : forall s s1 a b,
            parquet_datasets s a b = Ok s1 ->
            exists tr va, s1 = set_datasets s tr va).
  { intros s s1 a b. unfold parquet_datasets.
    destruct (build_iterable_processing s "train"); [|done].
    destruct (build_iterable_processing s "valid"); [|done].
    intros [= <-]. eauto. }
  assert (Hrows : forall s s1 files (w1 w2 : W),
            split_by_rows G iter_dataset RandomState_permutation s files w1 = (Ok s1, w2) ->
            exists tr va, s1 = set_ids s tr va /\ w2 = w1).
  { intros s s1 files w1 w2. unfold split_by_rows, bind, lift, ret.
    repeat match goal with
           | |- context [match ?r with Ok _ => _ | Raise _ => _ end] =>
               destruct r; simpl
           end; intros [= <- <-]; eauto. }
  assert (Hsetup : forall s1 (w1 : W),
            match dataset_files (setup_conf self), dataset_parts (setup_conf self) with
            | Some _, _ =>
                setup_iterable_files G ParquetFiles iter_dataset ListSplitter
                  RandomState_permutation self
            | None, Some _ => setup_iterable_parts PartitionedDataFiles ListSplitter self
            | None, None =>
                raise (AttributeError
                  "Missing dataset definition. One of `dataset_parts` or `dataset_files` expected")
            end w = (Ok s1, w1) ->
            exists tr va ti vi,
              s1 = set_datasets (match ti, vi with
                                 | Some t, Some v => set_ids self t v
                                 | _, _ => self
                                 end) tr va /\ w1 = w).
  { intros s1 w1.
    destruct (dataset_files (setup_conf self)) as [df|];
      [|destruct (dataset_parts (setup_conf self)) as [kw|] eqn:Hkw; [|done]].
    - unfold setup_iterable_files, bind, lift, raise.
      destruct (split_by (setup_conf self)) as [sb|]; simpl; [|done].
      destruct (decide (sb = "files")).
      + destruct (getitem _ _); simpl; [|done].
        destruct (valid_size _); simpl; [|done].
        destruct (valid_split_seed _); simpl; [|done].
        destruct (parquet_datasets _ _ _) as [s2|] eqn:Hs2; [|done].
        intros [= <- <-]. apply Hpq in Hs2 as (tr & va & ->).
        exists tr, va, None, None. done.
      + destruct (decide (sb = "rows")); [|done].
        destruct (getitem _ _); simpl; [|done].
        destruct (split_by_rows _ _ _ _ _ _) as [[s2|] w2] eqn:Hs2; [|done].
        apply Hrows in Hs2 as (t & v & -> & ->).
        destruct (parquet_datasets _ _ _) as [s3|] eqn:Hs3; [|done].
        intros [= <- <-]. apply Hpq in Hs3 as (tr & va & ->).
        exists tr, va, (Some t), (Some v). done.
    - unfold setup_iterable_parts, bind, lift, raise, ret. simpl.
      rewrite Hkw. simpl.
      destruct (PartitionedDataFiles kw); simpl; [|done].
      destruct (split_by (setup_conf self)) as [sb|]; simpl; [|done].
      destruct (decide (sb = "hash_id")).
      + destruct (valid_size _); simpl; [|done].
        destruct (valid_split_seed _); simpl; [|done].
        destruct (build_iterable_processing self "train"); simpl; [|done].
        destruct (build_iterable_processing self "valid"); simpl; [|done].
        intros [= <- <-]. eexists _, _, None, None. done.
      + destruct (decide (sb = "rows")); done. }
  unfold prepare_data, bind.
  match goal with
  | |- context [match ?c w with _ => _ end] => destruct (c w) as [[s1|e] w1]
  end; [|done].
  destruct (Hsetup s1 w1 eq_refl) as (tr & va & ti & vi & -> & ->).
  destruct (decide (_ = "map")).
  - intros Hm. apply Hmap in Hm as (tr' & va' & -> & ->).
    destruct ti, vi; simpl; eauto 10.
  - unfold ret. intros [= <- <-]. destruct ti, vi; simpl; eauto 10.
Qed.

End Paths.

(** Both loaders read the dataset of their part and use one collate
    function: [collate_nsp_pairs] itself for an iterable module, its
    flattening wrapper otherwise; the train loader of an iterable module
    does not shuffle; a missing [num_workers] or [batch_size] raises
    [KeyError], [num_workers] first. *)
Theorem dataloaders_collate (self : NspDataModuleTrain) :
  (forall dl1 dl2, train_dataloader self = Ok dl1 -> val_dataloader self = Ok dl2 ->
     dl_collate_fn dl1 = dl_collate_fn dl2
     /\ dl_dataset dl1 = train_dataset self /\ dl_dataset dl2 = valid_dataset self
     /\ (_type self = "iterable" ->
           dl_collate_fn dl1 = collate_nsp_pairs_fn
           /\ DataLoader_shuffles dl1 = false)
     /\ (_type self <> "iterable" ->
           dl_collate_fn dl1 = nested_list_to_flat_with_collate collate_nsp_pairs_fn))
  /\ (train_num_workers (train_conf self) = None ->
        train_dataloader self = Raise (KeyError "num_workers"))
  /\ (is_Some (train_num_workers (train_conf self)) ->
      train_batch_size (train_conf self) = None ->
        train_dataloader self = Raise (KeyError "batch_size"))
  /\ (valid_num_workers (valid_conf self) = None ->
        val_dataloader self = Raise (KeyError "num_workers"))
  /\ (is_Some (valid_num_workers (valid_conf self)) ->
      valid_batch_size (valid_conf self) = None ->
        val_dataloader self = Raise (KeyError "batch_size")).
Proof.
  unfold train_dataloader, val_dataloader, DataLoader_shuffles, loader_collate_fn.
  split; [|repeat split].
  - intros dl1 dl2.
    destruct (train_num_workers _), (train_batch_size _); simpl; try done.
    destruct (valid_num_workers _), (valid_batch_size _); simpl; try done.
    intros [= <-] [= <-]. simpl.
    split; [done|]. split; [done|]. split; [done|]. split; intros Hty.
    + rewrite decide_False by (by intros ?). by rewrite decide_True.
    + by rewrite decide_True.
  - by intros ->.
  - by intros [nw ->] ->.
  - by intros ->.
  - by intros [nw ->] ->.
Qed.

Lemma dataloaders_collate_witness :
  (exists dl1 dl2,
     train_dataloader
       (Examples.files_module "iterable" "files" (PyFloat Examples.float_0_2) 42) = Ok dl1
     /\ val_dataloader
       (Examples.files_module "iterable" "files" (PyFloat Examples.float_0_2) 42) = Ok dl2
     /\ dl_collate_fn dl1 = collate_nsp_pairs_fn
     /\ dl_collate_fn dl2 = collate_nsp_pairs_fn
     /\ DataLoader_shuffles dl1 = false).
Proof.
  pose proof (dataloaders_collate
                (Examples.files_module "iterable" "files" (PyFloat Examples.float_0_2) 42))
    as (H & _).
  eexists _, _.
  split; [reflexivity|]. split; [reflexivity|].
  destruct (H _ _ eq_refl eq_refl) as (Heq & _ & _ & Hit & _).
  destruct (Hit eq_refl) as [Hc Hs].
  rewrite <- Heq. auto.
Defined.

Lemma setup_iterable_parts_hash_id_witness :
  exists tr va,
    setup_iterable_parts (W := unit) Examples.two_parts Examples.seeded_splitter
      (Examples.parts_module "iterable" "hash_id") tt =
    (Ok (set_datasets (Examples.parts_module "iterable" "hash_id")
           (PartitionedDataset "data/parts" ["dt=1"] ["hash=0"; "hash=1"]
              "client_id" (IterableChain tr) true)
           (PartitionedDataset "data/parts" ["dt=1"] [] "client_id"
              (IterableChain va) false)), tt).
Proof.
  eexists _, _.
  apply (setup_iterable_parts_hash_id Examples.two_parts Examples.seeded_splitter
           (Examples.parts_module "iterable" "hash_id") tt
           [("data_path", "data/parts")]
           {| pdf_data_path := "data/parts"; pdf_dt_parts := ["dt=1"];
              pdf_hash_parts := ["hash=0"; "hash=1"] |}
           (PyFloat Examples.float_0_2) 42);
    reflexivity.
Defined.

Lemma prepare_data_map_files_witness :
  prepare_data (W := unit) module_globals Examples.one_file Examples.two_parts
    (Examples.yields [1; 2; 3]) Examples.seeded_splitter Examples.reversal
    (Examples.files_module "map" "files" (PyFloat Examples.float_0_2) 1) tt =
  (Ok (set_datasets
         (Examples.files_module "map" "files" (PyFloat Examples.float_0_2) 1)
         (MapSplittingDataset (Examples.rows_of_ids [1; 2; 3])
            (split_strategy_create [("cnt", PyInt 2)])
            [DropoutTrx (PyFloat Examples.float_0_2); sequence_pair_augmentation])
         (MapSplittingDataset (Examples.rows_of_ids [1; 2; 3])
            (split_strategy_create [("cnt", PyInt 2)])
            [sequence_pair_augmentation])), tt).
Proof.
  apply (prepare_data_map_files module_globals Examples.one_file Examples.two_parts
           (Examples.yields [1; 2; 3]) Examples.seeded_splitter Examples.reversal
           (Examples.files_module "map" "files" (PyFloat Examples.float_0_2) 1) tt
           "data/train.parquet" (PyFloat Examples.float_0_2) 1 1
           [("cnt", PyInt 2)] [("cnt", PyInt 2)] (PyFloat Examples.float_0_2));
    reflexivity.
Defined.

Lemma prepare_data_frame_witness :
  exists self',
    prepare_data (W := unit) module_globals Examples.one_file Examples.two_parts
      (Examples.yields [1; 2; 3]) Examples.seeded_splitter Examples.reversal
      (Examples.parts_module "iterable" "hash_id") tt = (Ok self', tt)
    /\ _type self' = "iterable"
    /\ setup_conf self' = setup_conf (Examples.parts_module "iterable" "hash_id")
    /\ is_Some (train_dataset self') /\ is_Some (valid_dataset self').
Proof.
  eexists. split; [vm_compute; reflexivity|].
  match goal with
  | |- _type ?s = _ /\ _ =>
      destruct (prepare_data_frame module_globals Examples.one_file
                  Examples.two_parts (Examples.yields [1; 2; 3])
                  Examples.seeded_splitter Examples.reversal
                  (Examples.parts_module "iterable" "hash_id") s tt tt)
        as (H1 & H2 & _ & _ & _ & _ & H3 & H4 & _)
  end.
  - vm_compute. reflexivity.
  - exact (conj H1 (conj H2 (conj H3 H4))).
Defined.

(** The chain built for train: the length filter is a stage of it; an
    id filter, present only over a files source split by rows, comes
    first and carries the train ids; for an iterable module the chain
    ends with the augmentations, dropout first, and otherwise with the
    category clip, nothing splitting or augmenting after it. *)
Theorem build_iterable_processing_train (self : NspDataModuleTrain)
    (stages : list stage) :
  build_iterable_processing self "train" = Ok stages ->
  (exists m, min_seq_len (train_conf self) = Some m /\ SeqLenFilter m ∈ stages)
  /\ (forall c ids, IdFilter c ids ∈ stages ->
        head stages = Some (IdFilter (col_id self) (_train_ids self))
        /\ c = col_id self /\ ids = _train_ids self
        /\ is_Some (dataset_files (setup_conf self))
        /\ split_by (setup_conf self) = Some "rows")
  /\ (_type self = "iterable" ->
        exists p, trx_dropout (train_conf self) = Some p
          /\ last stages =
             Some (IterableAugmentations [DropoutTrx p; sequence_pair_augmentation]))
  /\ (_type self <> "iterable" ->
        last stages = Some (CategorySizeClip (category_max_size self))).
Proof.
  unfold build_iterable_processing, build_augmentations. simpl.
  destruct (min_seq_len (train_conf self)) as [m|]; simpl;
    [|by repeat case_match].
  destruct (dataset_files (setup_conf self)) as [df|];
    [destruct (split_by (setup_conf self)) as [sb|]; simpl; [|done];
     destruct (decide (sb = "rows")) as [->|Hsb]|];
    (destruct (decide (_type self = "iterable")) as [Hty|Hty];
     [destruct (buffer_size (train_conf self)) as [b|]; simpl; [|done];
      destruct (train_split_strategy (train_conf self)) as [sc|]; simpl; [|done];
      destruct (trx_dropout (train_conf self)) as [p|]; simpl; [|done]|]);
    intros [= <-].
  all: split; [exists m; split; [done|]; rewrite !elem_of_cons; auto|].
  all: split;
    [intros c ids Hin;
     repeat (apply elem_of_cons in Hin as [Hin|Hin]; [try discriminate Hin|]);
     try (by apply elem_of_nil in Hin);
     injection Hin as -> ->; simpl; eauto 10|].
  all: split; intros Hty'; try done.
  all: try (eexists; split; [done|reflexivity]).
  all: reflexivity.
Qed.

Lemma build_iterable_processing_train_witness :
  exists stages,
    build_iterable_processing
      (Examples.files_module "iterable" "files" (PyFloat Examples.float_0_2) 1)
      "train" = Ok stages
    /\ SeqLenFilter 1 ∈ stages
    /\ last stages =
       Some (IterableAugmentations
               [DropoutTrx (PyFloat Examples.float_0_2); sequence_pair_augmentation]).
Proof.
  eexists. split; [reflexivity|].
  edestruct (build_iterable_processing_train
               (Examples.files_module "iterable" "files" (PyFloat Examples.float_0_2) 1))
    as ((m & Hm & Hin) & _ & Hit & _); [reflexivity|].
  destruct (Hit eq_refl) as (p & Hp & Hlast).
  injection Hm as <-. injection Hp as <-.
  exact (conj Hin Hlast).
Defined.

End LifecycleFacts.

